(** * serverwa: the HTTP gateway of [server.js]

    A shallow embedding of the original logic of [src/serverwa/server.js]:
    the recipient normalisation shared by [POST /send-message] and
    [POST /send-image], the two send handlers with their validation and
    their [try]/[catch], [GET /status] and the error middleware.

    JavaScript strings are sequences of UTF-16 code units; request bodies
    are the values [body-parser] produces; the WhatsApp client is an
    adapter the handlers call, recorded in a trace. *)

From Stdlib Require Import PrimFloat Ascii NArith.
From stdpp Require Import gmap strings list.

Set Warnings "-register-all".

(** ** JavaScript strings *)

Definition code_unit := N.
Definition jsstring := list code_unit.

(** A string literal of the source, as its code units. *)
Fixpoint lit (s : string) : jsstring :=
  match s with
  | EmptyString => []
  | String a t => N_of_ascii a :: lit t
  end.

(** The digits [0-9], the complement of the class [\D]. *)
Definition is_digit (c : code_unit) : bool := ((48 <=? c) && (c <=? 57))%N.

(** [pat] occurs at the front of [s]. *)
Fixpoint starts_with (pat s : jsstring) : bool :=
  match pat, s with
  | [], _ => true
  | _ :: _, [] => false
  | p :: pat', c :: s' => (p =? c)%N && starts_with pat' s'
  end.

(** [String.prototype.includes]: [pat] occurs somewhere in [s]. *)
Fixpoint includes (s pat : jsstring) : bool :=
  starts_with pat s ||
  match s with
  | [] => false
  | _ :: s' => includes s' pat
  end.

(** ** The regular expression [/^0|\+|\D/g]

    Every alternative of the expression is one character item, optionally
    anchored at the start of the input by [^] (no [m] flag: [^] holds at
    index 0 only). *)

Inductive item :=
| Chr (c : code_unit)   (* a literal character: [0], [\+] *)
| NonDigit.             (* the class [\D] *)

Record alternative := { anchored : bool; what : item }.

Definition regex := list alternative.

Definition number_re : regex :=
  [ {| anchored := true;  what := Chr 48%N |};   (* ^0 *)
    {| anchored := false; what := Chr 43%N |};   (* \+ *)
    {| anchored := false; what := NonDigit |} ]. (* \D *)

Definition item_matches (i : item) (c : code_unit) : bool :=
  match i with
  | Chr x => (c =? x)%N
  | NonDigit => negb (is_digit c)
  end.

Definition alternative_matches (pos : nat) (c : code_unit) (a : alternative) : bool :=
  (negb (anchored a) || Nat.eqb pos 0) && item_matches (what a) c.

(** Does the expression match the character [c] found at index [pos]? *)
Definition matches_at (re : regex) (pos : nat) (c : code_unit) : bool :=
  existsb (alternative_matches pos c) re.

(** [s.replace(re, '')] with the [g] flag, for the part of [s] that starts
    at index [pos]: every match is one character long and is dropped. *)
Fixpoint replace_from (re : regex) (pos : nat) (s : jsstring) : jsstring :=
  match s with
  | [] => []
  | c :: s' =>
      if matches_at re pos c
      then replace_from re (S pos) s'
      else c :: replace_from re (S pos) s'
  end.

Definition replace_all (re : regex) (s : jsstring) : jsstring :=
  replace_from re 0 s.

(** ** Recipient normalisation (lines 98-100 and 131-133)

    [number.includes('@c.us') ? number
                              : `${number.replace(/^0|\+|\D/g, '')}@c.us`] *)

Definition suffix : jsstring := lit "@c.us".

Definition formattedNumber (number : jsstring) : jsstring :=
  if includes number suffix
  then number
  else replace_all number_re number ++ suffix.

(** ** Vocabulary of the specification *)

(** The digits of a string, in order. *)
Definition digits_only (s : jsstring) : jsstring := List.filter is_digit s.

(** A single leading zero removed. *)
Definition strip_leading_zero (s : jsstring) : jsstring :=
  match s with
  | c :: s' => if (c =? 48)%N then s' else s
  | [] => []
  end.

(** [s] ends with [pat]. *)
Definition ends_with (s pat : jsstring) : bool :=
  starts_with (rev pat) (rev s).

(** The canonical form [<digits>@c.us]. *)
Definition canonical (s : jsstring) : Prop :=
  exists d, forallb is_digit d = true /\ s = d ++ suffix.

(** ** JavaScript values

    What [body-parser] hands to a route in [req.body]: the values of JSON
    (and of a url-encoded form), plus [undefined] for a property that is
    not there.  Numbers are IEEE 754 doubles. *)

Inductive value :=
| VUndefined
| VNull
| VBool (b : bool)
| VNum (x : float)
| VStr (s : jsstring)
| VArr (elems : list value)
| VObj (props : gmap jsstring value).

(** ToBoolean: [undefined], [null], [false], [0], [-0], [NaN] and [''] are
    falsy, everything else is truthy. *)
Definition truthy (v : value) : bool :=
  match v with
  | VUndefined | VNull => false
  | VBool b => b
  | VNum x => negb (PrimFloat.is_zero x || PrimFloat.is_nan x)
  | VStr s => match s with [] => false | _ => true end
  | VArr _ | VObj _ => true
  end.

(** Reading the property [k] of an object, as the destructuring
    [const { k } = req.body] does: [undefined] when it is absent. *)
Definition prop (o : gmap jsstring value) (k : string) : value :=
  default VUndefined (o !! lit k).

(** An [Error] object, for what the handlers read of it. *)
Record Error := { err_message : jsstring }.

Definition TypeError (msg : string) : Error := {| err_message := lit msg |}.

(** How an evaluation completes: normally, or by throwing. *)
Inductive completion (A : Type) :=
| Normal (a : A)
| Throw (e : Error).
Arguments Normal {A} a.
Arguments Throw {A} e.

(** ** The adapter: the [whatsapp-web.js] client *)

(** [new MessageMedia(mimetype, data, filename)] *)
Record MessageMedia := { mimetype : value; data : value; filename : jsstring }.

Inductive content :=
| Text (v : value)
| Media (m : MessageMedia).

Record send_options := { caption : value; sendMediaAsDocument : bool }.

(** One invocation [client.sendMessage(chatId, content, options)]. *)
Record send_call :=
  { chatId : value; payload : content; options : option send_options }.

(** The [Message] a send resolves with, read as [.id._serialized]. *)
Record MessageId := { _serialized : jsstring }.
Record Message := { msg_id : MessageId }.

(** [client.info], the [ClientInfo] of [whatsapp-web.js], set once the
    session is ready; its [wid] is always there. *)
Record Wid := { user : value }.
Record ClientInfo := { wid : Wid; platform : value; pushname : value }.

(** The client as a route sees it during one request: how the awaited
    [sendMessage] settles for each call, and the current [info]
    ([None] for [undefined]). *)
Record Client :=
  { sendMessage : send_call -> completion Message;
    info : option ClientInfo }.

(** ** Handlers as computations

    A computation reads the client, appends the sends it makes to the
    trace, and completes normally or by throwing. *)

Definition M (A : Type) : Type :=
  Client -> list send_call -> completion A * list send_call.

Definition ret {A} (a : A) : M A := fun _ tr => (Normal a, tr).

Definition bind {A B} (m : M A) (k : A -> M B) : M B :=
  fun client tr =>
    match m client tr with
    | (Normal a, tr') => k a client tr'
    | (Throw e, tr') => (Throw e, tr')
    end.

(** [try { body } catch (error) { handler }] *)
Definition try_catch {A} (body : M A) (handler : Error -> M A) : M A :=
  fun client tr =>
    match body client tr with
    | (Normal a, tr') => (Normal a, tr')
    | (Throw e, tr') => handler e client tr'
    end.

(** Lifting the completion of a pure expression. *)
Definition lift {A} (c : completion A) : M A := fun _ tr => (c, tr).

(** [await client.sendMessage(chatId, content, options)] *)
Definition await_sendMessage (c : send_call) : M Message :=
  fun client tr => (sendMessage client c, tr ++ [c]).

(** [client.info] *)
Definition client_info : M (option ClientInfo) :=
  fun client tr => (Normal (info client), tr).

(** The sequencing notation [x ← m; k] of stdpp, at [M]. *)
#[global] Instance M_ret : MRet M := @ret.
#[global] Instance M_bind : MBind M := fun A B k m => bind m k.

(** Running a route on a fresh request. *)
Definition run {A} (m : M A) (client : Client) : completion A * list send_call :=
  m client [].

(** ** Responses *)

Record response := { status : N; json : gmap jsstring value }.

(** [res.status(code).json(obj)] *)
Definition res_status_json (code : N) (obj : gmap jsstring value) : response :=
  {| status := code; json := obj |}.

(** [res.json(obj)]: the status stays at its default, 200. *)
Definition res_json (obj : gmap jsstring value) : response :=
  res_status_json 200 obj.

(** An object literal [{ k1: v1, k2: v2, ... }], property by property. *)
Definition object (fields : list (string * value)) : gmap jsstring value :=
  foldl (fun o kv => <[lit kv.1 := kv.2]> o) ∅ fields.

(** ** The recipient expression on an arbitrary value

    [number] is whatever the caller put in the body.  On a string the
    expression is [formattedNumber].  An array has [includes] (an element
    that is the string ['@c.us']) but no [replace]; the other values have
    neither method, and JSON carries no function to fill in for them. *)

Definition same_string (v : value) (s : jsstring) : bool :=
  match v with
  | VStr t => bool_decide (t = s)
  | _ => false
  end.

(** [Array.prototype.includes] with a string argument. *)
Definition array_includes (elems : list value) (s : jsstring) : bool :=
  existsb (fun v => same_string v s) elems.

Definition format_recipient (number : value) : completion value :=
  match number with
  | VStr s => Normal (VStr (formattedNumber s))
  | VArr elems =>
      if array_includes elems suffix
      then Normal number
      else Throw (TypeError "number.replace is not a function")
  | VUndefined =>
      Throw (TypeError "Cannot read properties of undefined (reading 'includes')")
  | VNull =>
      Throw (TypeError "Cannot read properties of null (reading 'includes')")
  | VBool _ | VNum _ | VObj _ =>
      Throw (TypeError "number.includes is not a function")
  end.

(** ** [POST /send-message] (lines 87-117)

    [body] is [req.body], the object [body-parser] built from the request.
    [formatted] stands for the constant [formattedNumber] of the source and
    [sent] for its [sendMessage], the awaited result. *)

Definition send_message (body : gmap jsstring value) : M response :=
  try_catch
    (let number := prop body "number" in
     let message := prop body "message" in
     if negb (truthy number) || negb (truthy message) then
       mret (res_status_json 400 (object
         [ ("success", VBool false);
           ("message", VStr (lit "Number and message are required")) ]))
     else
       formatted ← lift (format_recipient number);
       sent ← await_sendMessage
                {| chatId := formatted; payload := Text message; options := None |};
       mret (res_json (object
         [ ("success", VBool true);
           ("message", VStr (lit "Message sent successfully"));
           ("data", VStr (_serialized (msg_id sent))) ])))
    (fun error =>
       mret (res_status_json 500 (object
         [ ("success", VBool false);
           ("message", VStr (lit "Failed to send message"));
           ("error", VStr (err_message error)) ]))).

(** ** [GET /status] (lines 162-173) *)

Definition get_status : M response :=
  session ← client_info;
  let isConnected := match session with Some _ => true | None => false end in
  mret (res_json (object
    [ ("connected", VBool isConnected);
      ("status", VStr (if isConnected
                       then lit "Connected"
                       else lit "Waiting for connection"));
      ("info", match session with
               | Some i => VObj (object
                   [ ("wid", user (wid i));
                     ("platform", platform i);
                     ("pushname", pushname i) ])
               | None => VNull
               end) ])).

(** ** The error middleware (lines 176-183) *)

Definition error_middleware (err : Error) : response :=
  res_status_json 500 (object
    [ ("success", VBool false);
      ("message", VStr (lit "Internal server error"));
      ("error", VStr (err_message err)) ]).

(** ** [POST /send-image] (lines 120-159) *)

Section SendImage.

(** [mime.extension] of the [mime-types] package: the extension of a
    content type, or [false] ([None]) when it knows none. *)
Variable mime_extension : value -> option jsstring.

(** The template literal [`image.${mime.extension(mimeType)}`]. *)
Definition image_filename (mimeType : value) : jsstring :=
  lit "image." ++
  match mime_extension mimeType with
  | Some ext => ext
  | None => lit "false"
  end.

Definition send_image (body : gmap jsstring value) : M response :=
  try_catch
    (let number := prop body "number" in
     let caption := prop body "caption" in
     let imageBase64 := prop body "imageBase64" in
     let mimeType :=
       match prop body "mimeType" with
       | VUndefined => VStr (lit "image/jpeg")
       | given => given
       end in
     if negb (truthy imageBase64) || negb (truthy number) then
       mret (res_status_json 400 (object
         [ ("success", VBool false);
           ("error", VStr (lit "Number and imageBase64 are required")) ]))
     else
       formatted ← lift (format_recipient number);
       let media :=
         {| mimetype := mimeType;
            data := imageBase64;
            filename := image_filename mimeType |} in
       sent ← await_sendMessage
                {| chatId := formatted;
                   payload := Media media;
                   options := Some
                     {| caption := if truthy caption then caption else VStr [];
                        sendMediaAsDocument := false |} |};
       mret (res_json (object
         [ ("success", VBool true);
           ("message", VStr (lit "Image sent successfully"));
           ("data", VStr (_serialized (msg_id sent))) ])))
    (fun error =>
       mret (res_status_json 500 (object
         [ ("success", VBool false);
           ("message", VStr (lit "Failed to send image"));
           ("error", VStr (err_message error)) ]))).

End SendImage.

(** ** Vocabulary for the routes *)

(** A value that passes the test [number.includes('@c.us')]. *)
Definition includes_suffix (v : value) : bool :=
  match v with
  | VStr s => includes s suffix
  | VArr elems => array_includes elems suffix
  | _ => false
  end.

(** The failure shape the specification announces,
    [{success:false, message, error}]. *)
Definition stable_shape (r : response) : Prop :=
  json r !! lit "success" = Some (VBool false) /\
  is_Some (json r !! lit "message") /\
  is_Some (json r !! lit "error").

(** ** Sample requests and clients *)

(** The body [{number:"081234567890", message:"hi"}]. *)
Definition example_body : gmap jsstring value :=
  object [ ("number", VStr (lit "081234567890")); ("message", VStr (lit "hi")) ].

(** The body [{number:"", message:"hi"}]. *)
Definition empty_number_body : gmap jsstring value :=
  object [ ("number", VStr []); ("message", VStr (lit "hi")) ].

(** The body [{number:"081234567890", imageBase64:"/9j/4AAQ"}]. *)
Definition image_body : gmap jsstring value :=
  object [ ("number", VStr (lit "081234567890"));
           ("imageBase64", VStr (lit "/9j/4AAQ")) ].

(** The send [POST /send-message] makes for [example_body]. *)
Definition example_call : send_call :=
  {| chatId := VStr (lit "81234567890@c.us");
     payload := Text (VStr (lit "hi"));
     options := None |}.

(** A client whose sends all resolve with the message id [id]. *)
Definition resolving (id : string) : Client :=
  {| sendMessage := fun _ => Normal {| msg_id := {| _serialized := lit id |} |};
     info := None |}.

(** A client whose sends all reject with the error message [msg]. *)
Definition rejecting (msg : string) : Client :=
  {| sendMessage := fun _ => Throw {| err_message := lit msg |};
     info := None |}.

(** A ready client. *)
Definition ready : Client :=
  {| sendMessage := fun _ => Throw {| err_message := lit "unused" |};
     info := Some {| wid := {| user := VStr (lit "6281234567890") |};
                     platform := VStr (lit "android");
                     pushname := VStr (lit "Arief") |} |}.

(** The [mime-types] entry for JPEG images, and nothing else. *)
Definition jpeg_only (mimeType : value) : option jsstring :=
  if same_string mimeType (lit "image/jpeg") then Some (lit "jpeg") else None.

(** ** [GET /] (lines 24-30) *)

Definition get_root : M response :=
  mret (res_status_json 200 (object
    [ ("status", VStr (lit "WhatsApp API is running"));
      ("version", VStr (lit "1.0.0"));
      ("documentation", VStr (lit "/status - Check WhatsApp connection status")) ])).

(** ** Configuration from the environment (lines 10, 14 and 35)

    [process.env] maps names to strings; a variable that is not set reads
    as [undefined]. *)

Definition env_value (env : gmap jsstring jsstring) (name : string) : value :=
  match env !! lit name with
  | Some s => VStr s
  | None => VUndefined
  end.

(** [a || b] *)
Definition js_or (a b : value) : value := if truthy a then a else b.

(** [process.env.PORT || 3000] *)
Definition port (env : gmap jsstring jsstring) : value :=
  js_or (env_value env "PORT") (VNum 3000).

(** [process.env.ALLOWED_ORIGINS || '*'], the [origin] given to [cors]. *)
Definition cors_origin (env : gmap jsstring jsstring) : value :=
  js_or (env_value env "ALLOWED_ORIGINS") (VStr (lit "*")).

(** [process.env.WA_DATA_PATH || './auth_data'], the [dataPath] of [LocalAuth]. *)
Definition dataPath (env : gmap jsstring jsstring) : value :=
  js_or (env_value env "WA_DATA_PATH") (VStr (lit "./auth_data")).

(** ** More sample requests *)

(** The body [{number:81234567890, message:"hi"}], the number a JSON number. *)
Definition numeric_number_body : gmap jsstring value :=
  object [ ("number", VNum 81234567890); ("message", VStr (lit "hi")) ].

(** The body [{number:["81234567890@c.us","@c.us"], message:"hi"}]. *)
Definition array_number_body : gmap jsstring value :=
  object [ ("number", VArr [VStr (lit "81234567890@c.us"); VStr (lit "@c.us")]);
           ("message", VStr (lit "hi")) ].

(** The body [{number:"n/a", message:"hi"}]: a recipient without a digit. *)
Definition digitless_body : gmap jsstring value :=
  object [ ("number", VStr (lit "n/a")); ("message", VStr (lit "hi")) ].

(** The body [{number:"081234567890", message:"hi", imageBase64:"/9j/4AAQ",
    mimeType:null}]. *)
Definition null_mime_body : gmap jsstring value :=
  object [ ("number", VStr (lit "081234567890"));
           ("message", VStr (lit "hi"));
           ("imageBase64", VStr (lit "/9j/4AAQ"));
           ("mimeType", VNull) ].

(** The environment [PORT=8080], [ALLOWED_ORIGINS=] (set, empty). *)
Definition example_env : gmap jsstring jsstring :=
  <[lit "ALLOWED_ORIGINS" := []]> (<[lit "PORT" := lit "8080"]> ∅).

(** The send [POST /send-image] makes for [image_body] when [mime.extension]
    is [jpeg_only]. *)
Definition image_call : send_call :=
  {| chatId := VStr (lit "81234567890@c.us");
     payload := Media {| mimetype := VStr (lit "image/jpeg");
                         data := VStr (lit "/9j/4AAQ");
                         filename := lit "image.jpeg" |};
     options := Some {| caption := VStr []; sendMediaAsDocument := false |} |}.

(** The send it makes for [null_mime_body]. *)
Definition null_mime_call : send_call :=
  {| chatId := VStr (lit "81234567890@c.us");
     payload := Media {| mimetype := VNull;
                         data := VStr (lit "/9j/4AAQ");
                         filename := lit "image.false" |};
     options := Some {| caption := VStr []; sendMediaAsDocument := false |} |}.

(** ** Proof automation *)

(** Unfolding a route down to its decisions, leaving object literals
    and the normalisation folded. *)
Ltac route :=
  unfold run, send_message, send_image, get_status, try_catch,
    mbind, mret, M_bind, M_ret, bind, ret, lift, await_sendMessage, client_info;
  cbn [negb orb andb fst snd app].

(** * Properties of the normalisation *)

Section Normalisation.

Implicit Types (s d pat : jsstring) (c : code_unit).

Lemma starts_with_app pat s : starts_with pat (pat ++ s) = true.
Proof.
  induction pat as [|p pat IH]; simpl; [done|].
  by rewrite N.eqb_refl, IH.
Qed.

Lemma includes_app_r d pat : includes (d ++ pat) pat = true.
Proof.
  induction d as [|c d IH]; simpl.
  - pose proof (starts_with_app pat []) as H.
    rewrite app_nil_r in H.
    destruct pat; [done|]. cbn [includes]. by rewrite H.
  - rewrite IH. apply orb_true_r.
Qed.

(** Past index 0 the anchored alternative is dead: the expression
    matches exactly the non-digits ([+] is one of them). *)
Lemma matches_at_later n c :
  matches_at number_re (S n) c = negb (is_digit c).
Proof.
  unfold matches_at, alternative_matches, is_digit; simpl.
  rewrite orb_false_r.
  destruct (N.eqb_spec c 43) as [->|]; [done|]. done.
Qed.

(** At index 0 it also matches a zero. *)
Lemma matches_at_start c :
  matches_at number_re 0 c = (c =? 48)%N || negb (is_digit c).
Proof.
  unfold matches_at, alternative_matches, is_digit; simpl.
  rewrite orb_false_r.
  destruct (N.eqb_spec c 43) as [->|]; [done|]. done.
Qed.

Lemma replace_from_later n s :
  replace_from number_re (S n) s = digits_only s.
Proof.
  revert n; induction s as [|c s IH]; intros n; [done|].
  cbn [replace_from digits_only List.filter].
  rewrite matches_at_later, IH.
  unfold digits_only. by destruct (is_digit c).
Qed.

(** The replacement keeps the digits of the input, less a zero that
    is its first character. *)
Lemma replace_all_number_re s :
  replace_all number_re s = digits_only (strip_leading_zero s).
Proof.
  destruct s as [|c s]; [done|].
  unfold replace_all. cbn [replace_from strip_leading_zero].
  rewrite matches_at_start, replace_from_later.
  destruct (N.eqb_spec c 48) as [->|Hc]; [done|].
  unfold digits_only; cbn [List.filter orb].
  by destruct (is_digit c).
Qed.

Lemma formattedNumber_includes s :
  includes s suffix = true -> formattedNumber s = s.
Proof. unfold formattedNumber. by intros ->. Qed.

Lemma formattedNumber_rewrites s :
  includes s suffix = false ->
  formattedNumber s = digits_only (strip_leading_zero s) ++ suffix.
Proof.
  unfold formattedNumber. intros ->. by rewrite replace_all_number_re.
Qed.

Lemma digits_only_all s : forallb is_digit (digits_only s) = true.
Proof.
  apply forallb_forall. intros c Hc.
  unfold digits_only in Hc. by apply filter_In in Hc as [_ ?].
Qed.

Lemma ends_with_app d pat : ends_with (d ++ pat) pat = true.
Proof. unfold ends_with. rewrite rev_app_distr. apply starts_with_app. Qed.

Lemma canonical_ends_with s : canonical s -> ends_with s suffix = true.
Proof. intros (d & _ & ->). apply ends_with_app. Qed.

End Normalisation.

(** C1, as the specification words it, fails.  The input [+081234567890]
    has twelve digits and no ['@c.us']; its digits with one leading zero
    stripped are [81234567890], but the zero is not the first character of
    the input, so [^0] does not match it and the route forwards
    [081234567890@c.us]. *)
Lemma formattedNumber_keeps_inner_zero :
  includes (lit "+081234567890") suffix = false /\
  10 <= length (digits_only (lit "+081234567890")) <= 15 /\
  formattedNumber (lit "+081234567890") = lit "081234567890@c.us" /\
  strip_leading_zero (digits_only (lit "+081234567890")) ++ suffix
    = lit "81234567890@c.us" /\
  formattedNumber (lit "+081234567890")
    <> strip_leading_zero (digits_only (lit "+081234567890")) ++ suffix.
Proof. repeat split; try (vm_compute; lia); by vm_compute. Qed.

(** C1, amended: for every input of 10 to 15 digits, however decorated,
    that does not contain ['@c.us'], the normalisation returns the digits
    of the input, less one zero only when that zero is the first character
    of the input, followed by ['@c.us'].  When the input starts with a digit
    this is the digits-only string with one leading zero stripped. *)
Theorem formattedNumber_digits (s : jsstring) :
  includes s suffix = false ->
  10 <= length (digits_only s) <= 15 ->
  formattedNumber s = digits_only (strip_leading_zero s) ++ suffix /\
  (forallb is_digit (take 1 s) = true ->
   formattedNumber s = strip_leading_zero (digits_only s) ++ suffix).
Proof.
  intros Hs _. rewrite (formattedNumber_rewrites _ Hs). split; [done|].
  destruct s as [|c s]; [done|].
  cbn [take forallb strip_leading_zero]. rewrite andb_true_r. intros Hc.
  unfold digits_only at 2. cbn [List.filter]. rewrite Hc.
  cbn [strip_leading_zero].
  destruct (N.eqb_spec c 48); [done|].
  unfold digits_only. cbn [List.filter]. by rewrite Hc.
Qed.

Lemma formattedNumber_digits_witness :
  formattedNumber (lit "0812-3456-7890") = lit "81234567890@c.us" /\
  formattedNumber (lit "0812-3456-7890")
    = strip_leading_zero (digits_only (lit "0812-3456-7890")) ++ suffix.
Proof.
  assert (H1 : includes (lit "0812-3456-7890") suffix = false)
    by (vm_compute; reflexivity).
  assert (H2 : 10 <= length (digits_only (lit "0812-3456-7890")) <= 15)
    by (vm_compute; lia).
  destruct (formattedNumber_digits (lit "0812-3456-7890") H1 H2) as [Ha Hb].
  split.
  - rewrite Ha. vm_compute. reflexivity.
  - apply Hb. vm_compute. reflexivity.
Defined.

(** C2, as the specification words it, fails: the test is
    [includes], not "ends with".  An input that carries ['@c.us'] in the
    middle is passed through unchanged although it neither ends with the
    suffix nor has the canonical form. *)
Lemma formattedNumber_passes_inner_suffix :
  formattedNumber (lit "81234567890@c.us.example") = lit "81234567890@c.us.example" /\
  ends_with (lit "81234567890@c.us.example") suffix = false /\
  ~ canonical (lit "81234567890@c.us.example").
Proof.
  split; [by vm_compute|]. split; [by vm_compute|].
  intros H%canonical_ends_with. by vm_compute in H.
Qed.

(** C3: the normalisation is idempotent, and an address of the canonical
    form [<digits>@c.us] is returned unchanged. *)
Theorem formattedNumber_idempotent (x : jsstring) :
  formattedNumber (formattedNumber x) = formattedNumber x /\
  (canonical x -> formattedNumber x = x).
Proof.
  split.
  - unfold formattedNumber at 2 3.
    destruct (includes x suffix) eqn:Hx.
    + by apply formattedNumber_includes.
    + apply formattedNumber_includes, includes_app_r.
  - intros (d & _ & ->). apply formattedNumber_includes, includes_app_r.
Qed.

Lemma formattedNumber_idempotent_witness :
  formattedNumber (lit "81234567890@c.us") = lit "81234567890@c.us".
Proof.
  apply (formattedNumber_idempotent (lit "81234567890@c.us")).
  exists (lit "81234567890"). split; vm_compute; reflexivity.
Defined.


(** * Properties of the routes *)

Lemma prop_absent (body : gmap jsstring value) (k : string) :
  body !! lit k = None -> prop body k = VUndefined.
Proof. unfold prop. by intros ->. Qed.

Lemma prop_delete (body : gmap jsstring value) (k : string) :
  prop (delete (lit k) body) k = VUndefined.
Proof. unfold prop. by rewrite lookup_delete_eq. Qed.

(** What [POST /send-message] does, case by case. *)

Lemma send_message_rejects body client :
  truthy (prop body "number") = false \/ truthy (prop body "message") = false ->
  run (send_message body) client =
    (Normal (res_status_json 400 (object
       [ ("success", VBool false);
         ("message", VStr (lit "Number and message are required")) ])),
     []).
Proof.
  intros H. route.
  destruct H as [-> | ->]; [done|]. by rewrite orb_true_r.
Qed.

Lemma send_message_accepts body client :
  truthy (prop body "number") = true ->
  truthy (prop body "message") = true ->
  run (send_message body) client =
    match format_recipient (prop body "number") with
    | Throw e =>
        (Normal (res_status_json 500 (object
           [ ("success", VBool false);
             ("message", VStr (lit "Failed to send message"));
             ("error", VStr (err_message e)) ])),
         [])
    | Normal formatted =>
        let c := {| chatId := formatted;
                    payload := Text (prop body "message");
                    options := None |} in
        (match sendMessage client c with
         | Normal sent =>
             Normal (res_json (object
               [ ("success", VBool true);
                 ("message", VStr (lit "Message sent successfully"));
                 ("data", VStr (_serialized (msg_id sent))) ]))
         | Throw e =>
             Normal (res_status_json 500 (object
               [ ("success", VBool false);
                 ("message", VStr (lit "Failed to send message"));
                 ("error", VStr (err_message e)) ]))
         end,
         [c])
    end.
Proof.
  intros Hn Hm. route. rewrite Hn, Hm. cbn [negb orb].
  destruct (format_recipient _); [|done].
  cbn [app]. by destruct (sendMessage client _).
Qed.

Lemma send_message_responds body client :
  exists r, (run (send_message body) client).1 = Normal r.
Proof.
  destruct (truthy (prop body "number")) eqn:Hn;
    [destruct (truthy (prop body "message")) eqn:Hm|].
  - rewrite send_message_accepts by done.
    destruct (format_recipient _); [|by eexists].
    cbn. destruct (sendMessage client _); by eexists.
  - rewrite send_message_rejects by auto. by eexists.
  - rewrite send_message_rejects by auto. by eexists.
Qed.

(** What the recipient expression can produce. *)
Lemma format_recipient_forwards number formatted :
  format_recipient number = Normal formatted ->
  (formatted = number /\ includes_suffix number = true) \/
  (exists s, formatted = VStr s /\ canonical s).
Proof.
  destruct number as [| | | |s|elems|]; try discriminate;
    cbn [format_recipient includes_suffix].
  - intros [= <-]. unfold formattedNumber.
    destruct (includes s suffix) eqn:Hs; [by left|right].
    eexists; split; [done|]. eexists; split; [|done].
    rewrite replace_all_number_re. apply digits_only_all.
  - destruct (array_includes elems suffix) eqn:He; intros H; [|discriminate H].
    injection H as <-. by left.
Qed.

Lemma send_message_trace body client c :
  c ∈ (run (send_message body) client).2 ->
  truthy (prop body "number") = true /\
  truthy (prop body "message") = true /\
  (run (send_message body) client).2 = [c] /\
  format_recipient (prop body "number") = Normal (chatId c) /\
  c = {| chatId := chatId c;
         payload := Text (prop body "message");
         options := None |}.
Proof.
  destruct (truthy (prop body "number")) eqn:Hn;
    [destruct (truthy (prop body "message")) eqn:Hm|].
  - rewrite send_message_accepts by done.
    destruct (format_recipient _) as [f|e]; cbn.
    + intros ->%list_elem_of_singleton. done.
    + by intros ?%elem_of_nil.
  - rewrite send_message_rejects by auto. by intros ?%elem_of_nil.
  - rewrite send_message_rejects by auto. by intros ?%elem_of_nil.
Qed.

Section Routes.

Variable mime_extension : value -> option jsstring.

Lemma send_image_rejects body client :
  truthy (prop body "imageBase64") = false \/ truthy (prop body "number") = false ->
  run (send_image mime_extension body) client =
    (Normal (res_status_json 400 (object
       [ ("success", VBool false);
         ("error", VStr (lit "Number and imageBase64 are required")) ])),
     []).
Proof.
  intros H. route.
  destruct H as [-> | ->]; [done|]. by rewrite orb_true_r.
Qed.

Lemma send_image_accepts body client :
  truthy (prop body "imageBase64") = true ->
  truthy (prop body "number") = true ->
  run (send_image mime_extension body) client =
    match format_recipient (prop body "number") with
    | Throw e =>
        (Normal (res_status_json 500 (object
           [ ("success", VBool false);
             ("message", VStr (lit "Failed to send image"));
             ("error", VStr (err_message e)) ])),
         [])
    | Normal formatted =>
        let mimeType :=
          match prop body "mimeType" with
          | VUndefined => VStr (lit "image/jpeg")
          | given => given
          end in
        let c :=
          {| chatId := formatted;
             payload := Media
               {| mimetype := mimeType;
                  data := prop body "imageBase64";
                  filename := image_filename mime_extension mimeType |};
             options := Some
               {| caption := if truthy (prop body "caption")
                             then prop body "caption" else VStr [];
                  sendMediaAsDocument := false |} |} in
        (match sendMessage client c with
         | Normal sent =>
             Normal (res_json (object
               [ ("success", VBool true);
                 ("message", VStr (lit "Image sent successfully"));
                 ("data", VStr (_serialized (msg_id sent))) ]))
         | Throw e =>
             Normal (res_status_json 500 (object
               [ ("success", VBool false);
                 ("message", VStr (lit "Failed to send image"));
                 ("error", VStr (err_message e)) ]))
         end,
         [c])
    end.
Proof.
  intros Hi Hn. route. rewrite Hn, Hi. cbn [negb orb].
  destruct (format_recipient _); [|done].
  cbn [app]. by destruct (sendMessage client _).
Qed.

Lemma send_image_trace body client c :
  c ∈ (run (send_image mime_extension body) client).2 ->
  truthy (prop body "imageBase64") = true /\
  truthy (prop body "number") = true /\
  (run (send_image mime_extension body) client).2 = [c] /\
  format_recipient (prop body "number") = Normal (chatId c) /\
  exists m, payload c = Media m /\
    data m = prop body "imageBase64" /\
    mimetype m = match prop body "mimeType" with
                 | VUndefined => VStr (lit "image/jpeg")
                 | given => given
                 end /\
    filename m = image_filename mime_extension (mimetype m).
Proof.
  destruct (truthy (prop body "imageBase64")) eqn:Hi;
    [destruct (truthy (prop body "number")) eqn:Hn|].
  - rewrite send_image_accepts by done.
    destruct (format_recipient _) as [f|e]; cbn.
    + intros ->%list_elem_of_singleton. cbn. repeat split. by eexists.
    + by intros ?%elem_of_nil.
  - rewrite send_image_rejects by auto. by intros ?%elem_of_nil.
  - rewrite send_image_rejects by auto. by intros ?%elem_of_nil.
Qed.

End Routes.

(** * The claims about the routes *)

Section Claims.

Variable mime_extension : value -> option jsstring.

(** C2, amended: the normalisation returns its input unchanged exactly
    when the input contains ['@c.us'] (anywhere, not only at its end);
    every other input string is rewritten into [<digits>@c.us], the
    run of digits possibly empty.  So every address either send route
    forwards to the client is the caller's own [number], which contains
    ['@c.us'], or a string of the form [<digits>@c.us]. *)
Theorem recipient_forwarded (s : jsstring) (body : gmap jsstring value)
    (client : Client) (c : send_call) :
  (formattedNumber s = s <-> includes s suffix = true) /\
  (includes s suffix = false -> canonical (formattedNumber s)) /\
  (c ∈ (run (send_message body) client).2 \/
   c ∈ (run (send_image mime_extension body) client).2 ->
   (chatId c = prop body "number" /\ includes_suffix (chatId c) = true) \/
   (exists a, chatId c = VStr a /\ canonical a)).
Proof.
  split; [split|split].
  - intros Heq. destruct (includes s suffix) eqn:Hs; [done|].
    rewrite (formattedNumber_rewrites _ Hs) in Heq.
    by rewrite <- Hs, <- Heq, includes_app_r.
  - apply formattedNumber_includes.
  - intros Hs. rewrite (formattedNumber_rewrites _ Hs).
    eexists; split; [|done]. apply digits_only_all.
  - intros [Hc | Hc].
    + apply send_message_trace in Hc as (_ & _ & _ & Hf & _).
      apply format_recipient_forwards in Hf as [[-> ?] | ?]; auto.
    + apply send_image_trace in Hc as (_ & _ & _ & Hf & _).
      apply format_recipient_forwards in Hf as [[-> ?] | ?]; auto.
Qed.

(** C4: when [number] or [message] is missing from the body,
    [POST /send-message] answers 400 with [success:false] and makes no
    call to the client. *)
Theorem send_message_missing_field (body : gmap jsstring value) (client : Client) :
  body !! lit "number" = None \/ body !! lit "message" = None ->
  run (send_message body) client =
    (Normal {| status := 400;
               json := object
                 [ ("success", VBool false);
                   ("message", VStr (lit "Number and message are required")) ] |},
     []).
Proof.
  intros H. apply send_message_rejects.
  destruct H as [H|H]; rewrite (prop_absent _ _ H); auto.
Qed.

(** C5: when [imageBase64] or [number] is missing, [POST /send-image]
    answers 400 and makes no call to the client; when [mimeType] is
    omitted, the media of every send has the mime type ['image/jpeg'] and
    the file name [image.] followed by the extension of that type; and
    such a send is made as soon as the two required fields are there and
    the recipient is a string. *)
Theorem send_image_validation (body : gmap jsstring value) (client : Client) :
  (body !! lit "imageBase64" = None \/ body !! lit "number" = None ->
   run (send_image mime_extension body) client =
     (Normal {| status := 400;
                json := object
                  [ ("success", VBool false);
                    ("error", VStr (lit "Number and imageBase64 are required")) ] |},
      [])) /\
  (body !! lit "mimeType" = None ->
   forall c, c ∈ (run (send_image mime_extension body) client).2 ->
     exists m, payload c = Media m /\
               mimetype m = VStr (lit "image/jpeg") /\
               filename m =
                 image_filename mime_extension (VStr (lit "image/jpeg"))) /\
  (body !! lit "mimeType" = None ->
   forall s, prop body "number" = VStr s -> s <> [] ->
     truthy (prop body "imageBase64") = true ->
     exists m o,
       (run (send_image mime_extension body) client).2 =
         [ {| chatId := VStr (formattedNumber s);
              payload := Media m; options := Some o |} ] /\
       mimetype m = VStr (lit "image/jpeg") /\
       data m = prop body "imageBase64" /\
       sendMediaAsDocument o = false).
Proof.
  split; [|split].
  - intros H. apply send_image_rejects.
    destruct H as [H|H]; rewrite (prop_absent _ _ H); auto.
  - intros Hm c Hc.
    apply send_image_trace in Hc as (_ & _ & _ & _ & m & Hp & _ & Hty & Hfn).
    rewrite (prop_absent _ _ Hm) in Hty.
    exists m. by rewrite Hfn, Hty.
  - intros Hm s Hs Hne Hi.
    rewrite send_image_accepts; [|done|rewrite Hs; by destruct s].
    rewrite Hs, (prop_absent _ _ Hm). cbn.
    by do 2 eexists.
Qed.

(** C6, amended: every failure response has [success:false].  The 500
    responses (a failed send in either route, and the error middleware)
    carry the three fields [success], [message] and [error].  The 400
    responses carry two: that of [POST /send-message] has [message] and
    no [error], that of [POST /send-image] has [error] and no
    [message]. *)
Theorem failure_responses (body : gmap jsstring value) (client : Client)
    (err : Error) (r : response) :
  status r <> 200%N ->
  ((run (send_message body) client).1 = Normal r ->
     json r !! lit "success" = Some (VBool false) /\
     is_Some (json r !! lit "message") /\
     (status r = 500%N /\ is_Some (json r !! lit "error") \/
      status r = 400%N /\ json r !! lit "error" = None)) /\
  ((run (send_image mime_extension body) client).1 = Normal r ->
     json r !! lit "success" = Some (VBool false) /\
     is_Some (json r !! lit "error") /\
     (status r = 500%N /\ is_Some (json r !! lit "message") \/
      status r = 400%N /\ json r !! lit "message" = None)) /\
  (r = error_middleware err -> status r = 500%N /\ stable_shape r).
Proof.
  intros Hfail. split; [|split].
  - destruct (truthy (prop body "number")) eqn:Hn;
      [destruct (truthy (prop body "message")) eqn:Hm|].
    + rewrite send_message_accepts by done.
      destruct (format_recipient _) as [f|e]; cbn [fst].
      * destruct (sendMessage client _) as [sent|e]; intros [= <-].
        -- by destruct Hfail.
        -- split; [done|]. split; [by eexists|]. left. split; [done|by eexists].
      * intros [= <-].
        split; [done|]. split; [by eexists|]. left. split; [done|by eexists].
    + rewrite send_message_rejects by auto. intros [= <-].
      split; [done|]. split; [by eexists|]. by right.
    + rewrite send_message_rejects by auto. intros [= <-].
      split; [done|]. split; [by eexists|]. by right.
  - destruct (truthy (prop body "imageBase64")) eqn:Hi;
      [destruct (truthy (prop body "number")) eqn:Hn|].
    + rewrite send_image_accepts by done.
      destruct (format_recipient _) as [f|e]; cbn [fst].
      * cbn zeta. destruct (sendMessage client _) as [sent|e]; intros [= <-].
        -- by destruct Hfail.
        -- split; [done|]. split; [by eexists|]. left. split; [done|by eexists].
      * intros [= <-].
        split; [done|]. split; [by eexists|]. left. split; [done|by eexists].
    + rewrite send_image_rejects by auto. intros [= <-].
      split; [done|]. split; [by eexists|]. by right.
    + rewrite send_image_rejects by auto. intros [= <-].
      split; [done|]. split; [by eexists|]. by right.
  - intros ->. split; [done|]. split; [done|]. split; by eexists.
Qed.

End Claims.

(** C7: [GET /status] never throws and calls nothing: with no session it
    answers exactly [{connected:false, status:"Waiting for connection",
    info:null}]; with a session it answers [connected:true] and the
    session's user id, platform and display name. *)
Theorem get_status_reports (client : Client) :
  (exists r, run get_status client = (Normal r, [])) /\
  (info client = None ->
   run get_status client =
     (Normal {| status := 200;
                json := object
                  [ ("connected", VBool false);
                    ("status", VStr (lit "Waiting for connection"));
                    ("info", VNull) ] |},
      [])) /\
  (forall i, info client = Some i ->
   run get_status client =
     (Normal {| status := 200;
                json := object
                  [ ("connected", VBool true);
                    ("status", VStr (lit "Connected"));
                    ("info", VObj (object
                       [ ("wid", user (wid i));
                         ("platform", platform i);
                         ("pushname", pushname i) ])) ] |},
      [])).
Proof.
  split; [|split].
  - route. by eexists.
  - route. by intros ->.
  - route. by intros i ->.
Qed.

(** C8: for the body [{number:"081234567890", message:"hi"}],
    [POST /send-message] sends to ["81234567890@c.us"], and when that send
    resolves with a message id the response is [{success:true,
    message:"Message sent successfully", data:<that id>}]. *)
Theorem send_message_example (client : Client) (sent : Message) :
  (run (send_message example_body) client).2 =
    [ {| chatId := VStr (lit "81234567890@c.us");
         payload := Text (VStr (lit "hi"));
         options := None |} ] /\
  (sendMessage client
     {| chatId := VStr (lit "81234567890@c.us");
        payload := Text (VStr (lit "hi"));
        options := None |} = Normal sent ->
   (run (send_message example_body) client).1 =
     Normal {| status := 200;
               json := object
                 [ ("success", VBool true);
                   ("message", VStr (lit "Message sent successfully"));
                   ("data", VStr (_serialized (msg_id sent))) ] |}).
Proof.
  assert (Hn : prop example_body "number" = VStr (lit "081234567890"))
    by (vm_compute; reflexivity).
  assert (Hm : prop example_body "message" = VStr (lit "hi"))
    by (vm_compute; reflexivity).
  assert (Hf : formattedNumber (lit "081234567890") = lit "81234567890@c.us")
    by (vm_compute; reflexivity).
  rewrite send_message_accepts by (by rewrite ?Hn, ?Hm).
  rewrite Hn, Hm. cbn [format_recipient]. rewrite Hf. cbn [fst snd].
  split; [done|]. by intros ->.
Qed.

(** C9: in [POST /send-message] with both fields present, when the send
    throws an error whose message is ["Evaluation failed"], the response is
    500 with exactly [{success:false, message:"Failed to send message",
    error:"Evaluation failed"}]. *)
Theorem send_message_adapter_failure (body : gmap jsstring value)
    (client : Client) (c : send_call) :
  is_Some (body !! lit "number") ->
  is_Some (body !! lit "message") ->
  c ∈ (run (send_message body) client).2 ->
  sendMessage client c = Throw {| err_message := lit "Evaluation failed" |} ->
  (run (send_message body) client).1 =
    Normal {| status := 500;
              json := object
                [ ("success", VBool false);
                  ("message", VStr (lit "Failed to send message"));
                  ("error", VStr (lit "Evaluation failed")) ] |}.
Proof.
  intros _ _ Hc Hthrow.
  apply send_message_trace in Hc as (Hn & Hm & _ & Hf & Hc).
  rewrite send_message_accepts by done. rewrite Hf. cbn [fst].
  by rewrite <- Hc, Hthrow.
Qed.

(** C10: the required-field checks take any falsy value for a missing
    field.  The empty string is falsy; a body whose [number], [message] or
    [imageBase64] is falsy is answered 400 with no call to the client, the
    very outcome of the same body with that field removed. *)
Theorem falsy_field_rejected (mime_extension : value -> option jsstring)
    (body : gmap jsstring value) (client : Client) (k : string) :
  truthy (VStr []) = false /\
  (truthy (prop body k) = false ->
   (k = "number"%string \/ k = "message"%string ->
    run (send_message body) client =
      (Normal {| status := 400;
                 json := object
                   [ ("success", VBool false);
                     ("message", VStr (lit "Number and message are required")) ] |},
       []) /\
    run (send_message body) client =
      run (send_message (delete (lit k) body)) client) /\
   (k = "number"%string \/ k = "imageBase64"%string ->
    run (send_image mime_extension body) client =
      (Normal {| status := 400;
                 json := object
                   [ ("success", VBool false);
                     ("error", VStr (lit "Number and imageBase64 are required")) ] |},
       []) /\
    run (send_image mime_extension body) client =
      run (send_image mime_extension (delete (lit k) body)) client)).
Proof.
  split; [done|]. intros Hk.
  pose proof (prop_delete body k) as Hd.
  split; intros Hwhich.
  - rewrite !send_message_rejects; [done| |];
      destruct Hwhich as [-> | ->]; rewrite ?Hd; auto.
  - rewrite !send_image_rejects; [done| |];
      destruct Hwhich as [-> | ->]; rewrite ?Hd; auto.
Qed.

(** * The claims at concrete requests *)

Lemma recipient_forwarded_witness :
  canonical (formattedNumber (lit "0812-3456-7890")) /\
  ((chatId example_call = prop example_body "number" /\
    includes_suffix (chatId example_call) = true) \/
   (exists a, chatId example_call = VStr a /\ canonical a)).
Proof.
  destruct (recipient_forwarded jpeg_only (lit "0812-3456-7890")
              example_body (resolving "3EB0") example_call) as (_ & Hrw & Hfw).
  split.
  - apply Hrw. vm_compute. reflexivity.
  - apply Hfw. left.
    replace (run (send_message example_body) (resolving "3EB0")).2
      with [example_call] by (vm_compute; reflexivity).
    apply list_elem_of_singleton. reflexivity.
Defined.

Lemma send_message_missing_field_witness :
  run (send_message ∅) (resolving "3EB0") =
    (Normal {| status := 400;
               json := object
                 [ ("success", VBool false);
                   ("message", VStr (lit "Number and message are required")) ] |},
     []).
Proof.
  apply send_message_missing_field. left. reflexivity.
Defined.

Lemma send_image_validation_witness :
  (run (send_image jpeg_only ∅) (resolving "3EB0")).2 = [] /\
  (forall c, c ∈ (run (send_image jpeg_only image_body) (resolving "3EB0")).2 ->
     exists m, payload c = Media m /\
               mimetype m = VStr (lit "image/jpeg") /\
               filename m = lit "image.jpeg") /\
  (exists m o,
     (run (send_image jpeg_only image_body) (resolving "3EB0")).2 =
       [ {| chatId := VStr (lit "81234567890@c.us");
            payload := Media m; options := Some o |} ] /\
     mimetype m = VStr (lit "image/jpeg")).
Proof.
  split; [|split].
  - destruct (send_image_validation jpeg_only ∅ (resolving "3EB0")) as (H & _).
    rewrite H; [reflexivity|]. left. reflexivity.
  - destruct (send_image_validation jpeg_only image_body (resolving "3EB0"))
      as (_ & H & _).
    apply H. vm_compute. reflexivity.
  - destruct (send_image_validation jpeg_only image_body (resolving "3EB0"))
      as (_ & _ & H).
    destruct (H ltac:(vm_compute; reflexivity) (lit "081234567890")
                ltac:(vm_compute; reflexivity) ltac:(discriminate)
                ltac:(vm_compute; reflexivity)) as (m & o & Htr & Hty & _).
    exists m, o. split; [exact Htr | exact Hty].
Defined.

(** C6, as the specification words it, fails on the validation
    responses: the 400 of [POST /send-message] has no [error] field and the
    400 of [POST /send-image] has no [message] field. *)
Lemma validation_failure_shape :
  exists r1 r2,
    run (send_message ∅) (resolving "3EB0") = (Normal r1, []) /\
    run (send_image jpeg_only ∅) (resolving "3EB0") = (Normal r2, []) /\
    status r1 = 400%N /\ json r1 !! lit "error" = None /\
    status r2 = 400%N /\ json r2 !! lit "message" = None /\
    ~ stable_shape r1 /\ ~ stable_shape r2.
Proof.
  do 2 eexists. split; [reflexivity|]. split; [reflexivity|].
  repeat split; try (vm_compute; reflexivity).
  - intros (_ & _ & [v Hv]). vm_compute in Hv. discriminate Hv.
  - intros (_ & [v Hv] & _). vm_compute in Hv. discriminate Hv.
Qed.

Lemma failure_responses_witness :
  stable_shape (error_middleware {| err_message := lit "boom" |}) /\
  (forall r, (run (send_message example_body) (rejecting "Evaluation failed")).1
               = Normal r ->
             is_Some (json r !! lit "error")) /\
  (forall r, (run (send_image jpeg_only ∅) (resolving "3EB0")).1 = Normal r ->
             json r !! lit "message" = None).
Proof.
  split; [|split].
  - apply (failure_responses jpeg_only ∅ (resolving "3EB0")
             {| err_message := lit "boom" |}
             (error_middleware {| err_message := lit "boom" |}));
      [vm_compute; discriminate | reflexivity].
  - intros r Hr.
    assert (Hs : status r <> 200%N).
    { vm_compute in Hr. injection Hr as <-. vm_compute. discriminate. }
    destruct (failure_responses jpeg_only example_body
                (rejecting "Evaluation failed")
                {| err_message := lit "boom" |} r Hs) as (H & _ & _).
    destruct (H Hr) as (_ & _ & [[_ He] | [H400 _]]); [exact He|].
    vm_compute in Hr. injection Hr as <-. vm_compute in H400. discriminate H400.
  - intros r Hr.
    assert (Hs : status r <> 200%N).
    { vm_compute in Hr. injection Hr as <-. vm_compute. discriminate. }
    destruct (failure_responses jpeg_only ∅ (resolving "3EB0")
                {| err_message := lit "boom" |} r Hs) as (_ & H & _).
    destruct (H Hr) as (_ & _ & [[H500 _] | [_ Hm]]); [|exact Hm].
    vm_compute in Hr. injection Hr as <-. vm_compute in H500. discriminate H500.
Defined.

Lemma get_status_reports_witness :
  run get_status (resolving "3EB0") =
    (Normal {| status := 200;
               json := object
                 [ ("connected", VBool false);
                   ("status", VStr (lit "Waiting for connection"));
                   ("info", VNull) ] |},
     []) /\
  run get_status ready =
    (Normal {| status := 200;
               json := object
                 [ ("connected", VBool true);
                   ("status", VStr (lit "Connected"));
                   ("info", VObj (object
                      [ ("wid", VStr (lit "6281234567890"));
                        ("platform", VStr (lit "android"));
                        ("pushname", VStr (lit "Arief")) ])) ] |},
     []).
Proof.
  split.
  - apply (get_status_reports (resolving "3EB0")). reflexivity.
  - destruct (get_status_reports ready) as (_ & _ & H).
    apply (H _ eq_refl).
Defined.

Lemma send_message_example_witness :
  (run (send_message example_body) (resolving "3EB0")).1 =
    Normal {| status := 200;
              json := object
                [ ("success", VBool true);
                  ("message", VStr (lit "Message sent successfully"));
                  ("data", VStr (lit "3EB0")) ] |}.
Proof.
  apply (send_message_example (resolving "3EB0")
           {| msg_id := {| _serialized := lit "3EB0" |} |}).
  reflexivity.
Defined.

Lemma send_message_adapter_failure_witness :
  (run (send_message example_body) (rejecting "Evaluation failed")).1 =
    Normal {| status := 500;
              json := object
                [ ("success", VBool false);
                  ("message", VStr (lit "Failed to send message"));
                  ("error", VStr (lit "Evaluation failed")) ] |}.
Proof.
  apply (send_message_adapter_failure example_body
           (rejecting "Evaluation failed") example_call).
  - eexists. vm_compute. reflexivity.
  - eexists. vm_compute. reflexivity.
  - replace (run (send_message example_body) (rejecting "Evaluation failed")).2
      with [example_call] by (vm_compute; reflexivity).
    apply list_elem_of_singleton. reflexivity.
  - reflexivity.
Defined.

Lemma falsy_field_rejected_witness :
  (run (send_message empty_number_body) (resolving "3EB0")).2 = [] /\
  run (send_message empty_number_body) (resolving "3EB0") =
    run (send_message (delete (lit "number") empty_number_body)) (resolving "3EB0").
Proof.
  destruct (falsy_field_rejected jpeg_only empty_number_body
              (resolving "3EB0") "number") as (_ & H).
  destruct (H ltac:(vm_compute; reflexivity)) as (Hm & _).
  destruct (Hm ltac:(left; reflexivity)) as (H400 & Hsame).
  split; [by rewrite H400 | exact Hsame].
Defined.

(** * Further properties of the normalisation *)

Section Substrings.

Implicit Types (s a b d pat : jsstring) (c : code_unit).

Lemma starts_with_prefix pat s :
  starts_with pat s = true <-> exists b, s = pat ++ b.
Proof.
  revert s; induction pat as [|p pat IH]; intros s; cbn [starts_with].
  - split; [by exists s|done].
  - destruct s as [|c s].
    + split; [done|]. by intros [b Hb].
    + rewrite andb_true_iff, N.eqb_eq, IH. split.
      * intros [-> [b ->]]. by exists b.
      * intros [b [= -> ->]]. eauto.
Qed.

(** [includes] is the substring relation. *)
Lemma includes_substring s pat :
  includes s pat = true <-> exists a b, s = a ++ pat ++ b.
Proof.
  induction s as [|c s IH]; cbn [includes].
  - rewrite orb_false_r, starts_with_prefix. split.
    + intros [b Hb]. by exists [], b.
    + intros (a & b & Hab). destruct a; [by exists b|done].
  - rewrite orb_true_iff, starts_with_prefix, IH. split.
    + intros [[b Hb] | (a & b & ->)]; [by exists [], b|by exists (c :: a), b].
    + intros (a & b & Hab). destruct a as [|x a].
      * left. by exists b.
      * right. injection Hab as -> ->. by exists a, b.
Qed.

Lemma digits_only_sublist s : digits_only s `sublist_of` s.
Proof.
  unfold digits_only. induction s as [|c s IH]; cbn [List.filter]; [done|].
  destruct (is_digit c); by constructor.
Qed.

Lemma strip_leading_zero_sublist s : strip_leading_zero s `sublist_of` s.
Proof.
  destruct s as [|c s]; cbn [strip_leading_zero]; [done|].
  destruct (c =? 48)%N; [by constructor|done].
Qed.

Lemma digits_only_app a b : digits_only (a ++ b) = digits_only a ++ digits_only b.
Proof. apply List.filter_app. Qed.

End Substrings.

Lemma formattedNumber_has_suffix (s : jsstring) :
  includes (formattedNumber s) suffix = true.
Proof.
  unfold formattedNumber. destruct (includes s suffix) eqn:Hs; [done|].
  apply includes_app_r.
Qed.

(** X1: whatever the input, the normalised recipient contains ['@c.us'];
    when the input did not, the result ends with it. *)
Theorem formattedNumber_suffixed (s : jsstring) :
  includes (formattedNumber s) suffix = true /\
  (includes s suffix = false -> ends_with (formattedNumber s) suffix = true).
Proof.
  split; [apply formattedNumber_has_suffix|].
  intros Hs. rewrite (formattedNumber_rewrites _ Hs). apply ends_with_app.
Qed.

Lemma formattedNumber_suffixed_witness :
  ends_with (formattedNumber (lit "+62 812-3456-7890")) suffix = true.
Proof.
  apply (formattedNumber_suffixed (lit "+62 812-3456-7890")).
  vm_compute. reflexivity.
Defined.

(** X2: the normalisation leaves its input alone exactly when the input
    can be cut as [a ++ "@c.us" ++ b], with any text before and after. *)
Theorem formattedNumber_fixed_iff (s : jsstring) :
  formattedNumber s = s <-> exists a b, s = a ++ suffix ++ b.
Proof.
  rewrite <- includes_substring. split.
  - intros Heq. rewrite <- Heq. apply formattedNumber_has_suffix.
  - apply formattedNumber_includes.
Qed.

(** X3: on an input without ['@c.us'] the normalisation neither invents
    nor reorders characters: what precedes the suffix is a run of digits,
    a subsequence of the input, and it misses at most one of the input's
    digits. *)
Theorem formattedNumber_subsequence (s : jsstring) :
  includes s suffix = false ->
  exists d,
    formattedNumber s = d ++ suffix /\
    forallb is_digit d = true /\
    d `sublist_of` s /\
    length d <= length (digits_only s) <= S (length d).
Proof.
  intros Hs. exists (digits_only (strip_leading_zero s)).
  split; [by apply formattedNumber_rewrites|].
  split; [apply digits_only_all|].
  split.
  - etransitivity; [apply digits_only_sublist|apply strip_leading_zero_sublist].
  - destruct s as [|c s]; cbn [strip_leading_zero]; [cbn; lia|].
    destruct (N.eqb_spec c 48) as [->|]; [|lia].
    unfold digits_only. cbn [List.filter is_digit N.leb N.compare andb].
    cbn. lia.
Qed.

Lemma formattedNumber_subsequence_witness :
  exists d,
    formattedNumber (lit "(0812) 3456-7890") = d ++ suffix /\
    forallb is_digit d = true /\
    d `sublist_of` lit "(0812) 3456-7890" /\
    length d <= length (digits_only (lit "(0812) 3456-7890")) <= S (length d).
Proof.
  apply (formattedNumber_subsequence (lit "(0812) 3456-7890")).
  vm_compute. reflexivity.
Defined.

(** X4: decoration after the first character does not matter: dropping a
    non-digit from anywhere but the front of the input leaves the result
    unchanged, as long as neither string contains ['@c.us']. *)
Theorem formattedNumber_ignores_decoration (a b : jsstring) (c : code_unit) :
  a <> [] ->
  is_digit c = false ->
  includes (a ++ c :: b) suffix = false ->
  includes (a ++ b) suffix = false ->
  formattedNumber (a ++ c :: b) = formattedNumber (a ++ b).
Proof.
  intros Ha Hc H1 H2.
  rewrite (formattedNumber_rewrites _ H1), (formattedNumber_rewrites _ H2).
  f_equal. destruct a as [|x a]; [done|].
  cbn [app strip_leading_zero].
  assert (Hd : digits_only (a ++ c :: b) = digits_only (a ++ b)).
  { rewrite !digits_only_app. f_equal.
    unfold digits_only. cbn [List.filter]. by rewrite Hc. }
  destruct (x =? 48)%N; [done|].
  change (x :: a ++ c :: b) with ([x] ++ (a ++ c :: b)).
  change (x :: a ++ b) with ([x] ++ (a ++ b)).
  by rewrite !(digits_only_app [x]), Hd.
Qed.

Lemma formattedNumber_ignores_decoration_witness :
  formattedNumber (lit "0812-34567890") = formattedNumber (lit "081234567890").
Proof.
  apply (formattedNumber_ignores_decoration (lit "0812") (lit "34567890") 45%N);
    [discriminate | vm_compute; reflexivity ..].
Defined.

(** * Further properties of the routes *)

(** The route on a string recipient: one send, to the normalised address,
    and a response that mirrors how the send settles. *)
Lemma send_message_string body client s :
  prop body "number" = VStr s -> s <> [] ->
  truthy (prop body "message") = true ->
  run (send_message body) client =
    let c := {| chatId := VStr (formattedNumber s);
                payload := Text (prop body "message");
                options := None |} in
    (match sendMessage client c with
     | Normal sent =>
         Normal (res_json (object
           [ ("success", VBool true);
             ("message", VStr (lit "Message sent successfully"));
             ("data", VStr (_serialized (msg_id sent))) ]))
     | Throw e =>
         Normal (res_status_json 500 (object
           [ ("success", VBool false);
             ("message", VStr (lit "Failed to send message"));
             ("error", VStr (err_message e)) ]))
     end,
     [c]).
Proof.
  intros Hn Hs Hm.
  rewrite send_message_accepts; [|rewrite Hn; by destruct s|done].
  by rewrite Hn.
Qed.

(** X5: for every non-empty string recipient and truthy message,
    [POST /send-message] makes exactly one send, to the normalised address,
    with the message as the caller gave it and no options; the response is
    200 with the message id when the send resolves, and 500 with the
    error's own message when it rejects. *)
Theorem send_message_forwards (body : gmap jsstring value) (client : Client)
    (s : jsstring) :
  prop body "number" = VStr s -> s <> [] ->
  truthy (prop body "message") = true ->
  (run (send_message body) client).2 =
    [ {| chatId := VStr (formattedNumber s);
         payload := Text (prop body "message");
         options := None |} ] /\
  (forall sent,
     sendMessage client
       {| chatId := VStr (formattedNumber s);
          payload := Text (prop body "message");
          options := None |} = Normal sent ->
     (run (send_message body) client).1 =
       Normal {| status := 200;
                 json := object
                   [ ("success", VBool true);
                     ("message", VStr (lit "Message sent successfully"));
                     ("data", VStr (_serialized (msg_id sent))) ] |}) /\
  (forall e,
     sendMessage client
       {| chatId := VStr (formattedNumber s);
          payload := Text (prop body "message");
          options := None |} = Throw e ->
     (run (send_message body) client).1 =
       Normal {| status := 500;
                 json := object
                   [ ("success", VBool false);
                     ("message", VStr (lit "Failed to send message"));
                     ("error", VStr (err_message e)) ] |}).
Proof.
  intros Hn Hs Hm. rewrite (send_message_string _ _ _ Hn Hs Hm). cbn [fst snd].
  split; [done|]. split; intros ? ->; done.
Qed.

Lemma send_message_forwards_witness :
  (run (send_message example_body) (rejecting "Session closed")).1 =
    Normal {| status := 500;
              json := object
                [ ("success", VBool false);
                  ("message", VStr (lit "Failed to send message"));
                  ("error", VStr (lit "Session closed")) ] |}.
Proof.
  destruct (send_message_forwards example_body (rejecting "Session closed")
              (lit "081234567890")) as (_ & _ & H);
    [vm_compute; reflexivity | discriminate | vm_compute; reflexivity |].
  apply (H {| err_message := lit "Session closed" |}). reflexivity.
Defined.

(** X6: there is no check that the recipient holds a number: a non-empty
    string with no digit at all (and no ['@c.us']) is sent to the bare
    address ["@c.us"]. *)
Theorem digitless_recipient_sent (body : gmap jsstring value) (client : Client)
    (s : jsstring) :
  prop body "number" = VStr s -> s <> [] ->
  digits_only s = [] ->
  includes s suffix = false ->
  truthy (prop body "message") = true ->
  (run (send_message body) client).2 =
    [ {| chatId := VStr (lit "@c.us");
         payload := Text (prop body "message");
         options := None |} ].
Proof.
  intros Hn Hs Hd Hi Hm. rewrite (send_message_string _ _ _ Hn Hs Hm). cbn [snd].
  rewrite (formattedNumber_rewrites _ Hi).
  assert (digits_only (strip_leading_zero s) = []) as ->; [|done].
  pose proof (digits_only_sublist (strip_leading_zero s)) as H1.
  destruct s as [|c s]; [done|]. cbn [strip_leading_zero] in *.
  destruct (N.eqb_spec c 48) as [->|]; [|done].
  unfold digits_only in Hd. cbn in Hd. discriminate Hd.
Qed.

Lemma digitless_recipient_sent_witness :
  (run (send_message digitless_body) (resolving "3EB0")).2 =
    [ {| chatId := VStr (lit "@c.us");
         payload := Text (VStr (lit "hi"));
         options := None |} ].
Proof.
  apply (digitless_recipient_sent digitless_body (resolving "3EB0") (lit "n/a"));
    [vm_compute; reflexivity | discriminate | vm_compute; reflexivity ..].
Defined.

(** X7: a recipient given as a JSON number, boolean or object is not
    converted to a string: with a truthy message the route answers 500 with
    the error text ["number.includes is not a function"], and makes no
    send. *)
Theorem send_message_non_string_number (body : gmap jsstring value)
    (client : Client) :
  truthy (prop body "number") = true ->
  truthy (prop body "message") = true ->
  (forall s, prop body "number" <> VStr s) ->
  (forall elems, prop body "number" <> VArr elems) ->
  run (send_message body) client =
    (Normal {| status := 500;
               json := object
                 [ ("success", VBool false);
                   ("message", VStr (lit "Failed to send message"));
                   ("error", VStr (lit "number.includes is not a function")) ] |},
     []).
Proof.
  intros Hn Hm Hstr Harr. rewrite send_message_accepts by done.
  destruct (prop body "number") as [| | | |s|elems|]; try done.
  - by destruct (Hstr s).
  - by destruct (Harr elems).
Qed.

Lemma send_message_non_string_number_witness :
  run (send_message numeric_number_body) (resolving "3EB0") =
    (Normal {| status := 500;
               json := object
                 [ ("success", VBool false);
                   ("message", VStr (lit "Failed to send message"));
                   ("error", VStr (lit "number.includes is not a function")) ] |},
     []).
Proof.
  apply send_message_non_string_number.
  - vm_compute. reflexivity.
  - vm_compute. reflexivity.
  - intros s H. vm_compute in H. discriminate H.
  - intros l H. vm_compute in H. discriminate H.
Defined.

(** X8: a recipient given as an array is forwarded as that very array
    when one of its elements is the string ['@c.us']; any other array is
    answered 500 with ["number.replace is not a function"] and no send. *)
Theorem send_message_array_number (body : gmap jsstring value)
    (client : Client) (elems : list value) :
  prop body "number" = VArr elems ->
  truthy (prop body "message") = true ->
  (array_includes elems suffix = true ->
   (run (send_message body) client).2 =
     [ {| chatId := VArr elems;
          payload := Text (prop body "message");
          options := None |} ]) /\
  (array_includes elems suffix = false ->
   run (send_message body) client =
     (Normal {| status := 500;
                json := object
                  [ ("success", VBool false);
                    ("message", VStr (lit "Failed to send message"));
                    ("error", VStr (lit "number.replace is not a function")) ] |},
      [])).
Proof.
  intros Hn Hm. rewrite send_message_accepts; [|by rewrite Hn|done].
  rewrite Hn. cbn [format_recipient].
  split; intros ->; done.
Qed.

Lemma send_message_array_number_witness :
  (run (send_message array_number_body) (resolving "3EB0")).2 =
    [ {| chatId := VArr [VStr (lit "81234567890@c.us"); VStr (lit "@c.us")];
         payload := Text (VStr (lit "hi"));
         options := None |} ].
Proof.
  destruct (send_message_array_number array_number_body (resolving "3EB0")
              [VStr (lit "81234567890@c.us"); VStr (lit "@c.us")]) as (H & _);
    [vm_compute; reflexivity ..|].
  apply H. vm_compute. reflexivity.
Defined.

Section MoreRoutes.

Variable mime_extension : value -> option jsstring.

(** X9: the two send routes treat the recipient alike: on a body whose
    required fields are all truthy they send to the same address, or both
    make no send. *)
Theorem routes_normalise_alike (body : gmap jsstring value) (client : Client) :
  truthy (prop body "number") = true ->
  truthy (prop body "message") = true ->
  truthy (prop body "imageBase64") = true ->
  chatId <$> (run (send_message body) client).2 =
  chatId <$> (run (send_image mime_extension body) client).2.
Proof.
  intros Hn Hm Hi.
  rewrite send_message_accepts, send_image_accepts by done.
  by destruct (format_recipient _).
Qed.

(** X10: every send [POST /send-image] makes carries the caller's
    [imageBase64] untouched as the media data, is never sent as a document,
    and has for caption the caller's caption when that is truthy and the
    empty string otherwise. *)
Theorem send_image_options (body : gmap jsstring value) (client : Client)
    (c : send_call) :
  c ∈ (run (send_image mime_extension body) client).2 ->
  exists m o,
    payload c = Media m /\ options c = Some o /\
    data m = prop body "imageBase64" /\
    sendMediaAsDocument o = false /\
    (truthy (prop body "caption") = true -> caption o = prop body "caption") /\
    (truthy (prop body "caption") = false -> caption o = VStr []).
Proof.
  intros Hc.
  destruct (send_image_trace mime_extension _ _ _ Hc) as (Hi & Hn & Htr & _).
  rewrite send_image_accepts in Htr by done.
  destruct (format_recipient _) as [f|e]; [|done].
  cbn in Htr. injection Htr as <-. cbn.
  do 2 eexists. repeat split; by intros ->.
Qed.

(** X11: only an absent [mimeType] is replaced by the default.  A
    [mimeType] that is given, [null] and the empty string included, goes to
    the media as it is; and when [mime.extension] knows no extension for it,
    the file name is ["image.false"]. *)
Theorem send_image_given_mime (body : gmap jsstring value) (client : Client)
    (c : send_call) (given : value) :
  body !! lit "mimeType" = Some given -> given <> VUndefined ->
  c ∈ (run (send_image mime_extension body) client).2 ->
  exists m,
    payload c = Media m /\ mimetype m = given /\
    (forall ext, mime_extension given = Some ext ->
                 filename m = lit "image." ++ ext) /\
    (mime_extension given = None -> filename m = lit "image.false").
Proof.
  intros Hg Hne Hc.
  destruct (send_image_trace mime_extension _ _ _ Hc)
    as (_ & _ & _ & _ & m & Hp & _ & Hty & Hfn).
  assert (Hprop : prop body "mimeType" = given) by (unfold prop; by rewrite Hg).
  rewrite Hprop in Hty.
  assert (mimetype m = given) as Hm by (rewrite Hty; by destruct given).
  exists m. split; [done|]. split; [done|].
  rewrite Hfn, Hm. unfold image_filename.
  split; [intros ext ->|intros ->]; done.
Qed.

(** X12: the response of [POST /send-image] mirrors how its send settles:
    200 with the message id when it resolves, 500 with the text
    ["Failed to send image"] and the error's own message when it rejects. *)
Theorem send_image_outcome (body : gmap jsstring value) (client : Client)
    (c : send_call) :
  c ∈ (run (send_image mime_extension body) client).2 ->
  (forall sent, sendMessage client c = Normal sent ->
     (run (send_image mime_extension body) client).1 =
       Normal {| status := 200;
                 json := object
                   [ ("success", VBool true);
                     ("message", VStr (lit "Image sent successfully"));
                     ("data", VStr (_serialized (msg_id sent))) ] |}) /\
  (forall e, sendMessage client c = Throw e ->
     (run (send_image mime_extension body) client).1 =
       Normal {| status := 500;
                 json := object
                   [ ("success", VBool false);
                     ("message", VStr (lit "Failed to send image"));
                     ("error", VStr (err_message e)) ] |}).
Proof.
  intros Hc.
  destruct (send_image_trace mime_extension _ _ _ Hc) as (Hi & Hn & Htr & _).
  revert Htr. rewrite send_image_accepts by done.
  destruct (format_recipient _) as [f|e0]; [|done].
  cbn. intros [= <-]. split; intros ? ->; done.
Qed.

(** X13: a route reports [success:true] only for a send that was made
    and resolved: in either send route the response has [success:true]
    exactly when the request made one send and that send resolved. *)
Theorem success_needs_resolved_send (body : gmap jsstring value)
    (client : Client) (r : response) :
  ((run (send_message body) client).1 = Normal r ->
   (json r !! lit "success" = Some (VBool true) <->
    exists c sent, (run (send_message body) client).2 = [c] /\
                   sendMessage client c = Normal sent)) /\
  ((run (send_image mime_extension body) client).1 = Normal r ->
   (json r !! lit "success" = Some (VBool true) <->
    exists c sent, (run (send_image mime_extension body) client).2 = [c] /\
                   sendMessage client c = Normal sent)).
Proof.
  split.
  - destruct (truthy (prop body "number")) eqn:Hn;
      [destruct (truthy (prop body "message")) eqn:Hm|].
    + rewrite send_message_accepts by done.
      destruct (format_recipient _) as [f|e]; cbn [fst snd].
      * destruct (sendMessage client _) as [sent|e] eqn:Hs; intros [= <-].
        -- split; [by eauto|done].
        -- split; [done|]. intros (c & sent & [= <-] & Hc).
           discriminate (eq_trans (eq_sym Hs) Hc).
      * intros [= <-]. split; [done|]. by intros (c & sent & ? & _).
    + rewrite send_message_rejects by auto. intros [= <-].
      split; [done|]. by intros (c & sent & ? & _).
    + rewrite send_message_rejects by auto. intros [= <-].
      split; [done|]. by intros (c & sent & ? & _).
  - destruct (truthy (prop body "imageBase64")) eqn:Hi;
      [destruct (truthy (prop body "number")) eqn:Hn|].
    + rewrite send_image_accepts by done.
      destruct (format_recipient _) as [f|e]; cbn [fst snd].
      * cbn zeta.
        destruct (sendMessage client _) as [sent|e] eqn:Hs; intros [= <-].
        -- split; [by eauto|done].
        -- split; [done|]. intros (c & sent & [= <-] & Hc).
           discriminate (eq_trans (eq_sym Hs) Hc).
      * intros [= <-]. split; [done|]. by intros (c & sent & ? & _).
    + rewrite send_image_rejects by auto. intros [= <-].
      split; [done|]. by intros (c & sent & ? & _).
    + rewrite send_image_rejects by auto. intros [= <-].
      split; [done|]. by intros (c & sent & ? & _).
Qed.

(** X14: the two send routes always answer, whatever the body and
    however the client behaves: the [catch] leaves no exception to escape,
    the status is 200, 400 or 500, and a request makes at most one send. *)
Theorem routes_always_respond (body : gmap jsstring value) (client : Client) :
  (exists r tr,
     run (send_message body) client = (Normal r, tr) /\
     (status r = 200 \/ status r = 400 \/ status r = 500)%N /\
     length tr <= 1) /\
  (exists r tr,
     run (send_image mime_extension body) client = (Normal r, tr) /\
     (status r = 200 \/ status r = 400 \/ status r = 500)%N /\
     length tr <= 1).
Proof.
  split.
  - destruct (truthy (prop body "number")) eqn:Hn;
      [destruct (truthy (prop body "message")) eqn:Hm|].
    + rewrite send_message_accepts by done.
      destruct (format_recipient _) as [f|e]; cbn zeta.
      * destruct (sendMessage client _); do 2 eexists;
          (split; [done|]); cbn; auto.
      * do 2 eexists. split; [done|]. cbn. auto.
    + rewrite send_message_rejects by auto.
      do 2 eexists. split; [done|]. cbn. auto.
    + rewrite send_message_rejects by auto.
      do 2 eexists. split; [done|]. cbn. auto.
  - destruct (truthy (prop body "imageBase64")) eqn:Hi;
      [destruct (truthy (prop body "number")) eqn:Hn|].
    + rewrite send_image_accepts by done.
      destruct (format_recipient _) as [f|e]; cbn zeta.
      * destruct (sendMessage client _); do 2 eexists;
          (split; [done|]); cbn; auto.
      * do 2 eexists. split; [done|]. cbn. auto.
    + rewrite send_image_rejects by auto.
      do 2 eexists. split; [done|]. cbn. auto.
    + rewrite send_image_rejects by auto.
      do 2 eexists. split; [done|]. cbn. auto.
Qed.

(** X15: the routes do not look at the session before sending: the sends
    a request makes are the same whatever the client's state and answers,
    so a request is attempted even when no session is connected. *)
Theorem sends_not_gated_on_session (body : gmap jsstring value)
    (client1 client2 : Client) :
  (run (send_message body) client1).2 = (run (send_message body) client2).2 /\
  (run (send_image mime_extension body) client1).2 =
  (run (send_image mime_extension body) client2).2.
Proof.
  split.
  - destruct (truthy (prop body "number")) eqn:Hn;
      [destruct (truthy (prop body "message")) eqn:Hm|].
    + rewrite !send_message_accepts by done. by destruct (format_recipient _).
    + by rewrite !send_message_rejects by auto.
    + by rewrite !send_message_rejects by auto.
  - destruct (truthy (prop body "imageBase64")) eqn:Hi;
      [destruct (truthy (prop body "number")) eqn:Hn|].
    + rewrite !send_image_accepts by done. by destruct (format_recipient _).
    + by rewrite !send_image_rejects by auto.
    + by rewrite !send_image_rejects by auto.
Qed.

End MoreRoutes.

(** * Configuration *)

Lemma js_or_env_default (env : gmap jsstring jsstring) (name : string)
    (fallback : value) :
  env !! lit name = None \/ env !! lit name = Some [] ->
  js_or (env_value env name) fallback = fallback.
Proof.
  intros H. unfold js_or, env_value.
  destruct (env !! lit name) as [s|] eqn:E; [|done].
  destruct H as [H|H]; [discriminate H|].
  by injection H as ->.
Qed.

Lemma js_or_env_given (env : gmap jsstring jsstring) (name : string)
    (fallback : value) (s : jsstring) :
  env !! lit name = Some s -> s <> [] ->
  js_or (env_value env name) fallback = VStr s.
Proof.
  intros H Hs. unfold js_or, env_value.
  destruct (env !! lit name) as [s'|] eqn:E; [|discriminate H].
  injection H as ->. by destruct s.
Qed.

(** X16: each of the three settings read from the environment falls back
    to its default when the variable is unset and also when it is set to
    the empty string; a non-empty variable is used as the string it is
    ([PORT] is not turned into a number). *)
Theorem config_defaults (env : gmap jsstring jsstring) (s : jsstring) :
  s <> [] ->
  (env !! lit "PORT" = None \/ env !! lit "PORT" = Some [] ->
   port env = VNum 3000) /\
  (env !! lit "PORT" = Some s -> port env = VStr s) /\
  (env !! lit "ALLOWED_ORIGINS" = None \/ env !! lit "ALLOWED_ORIGINS" = Some [] ->
   cors_origin env = VStr (lit "*")) /\
  (env !! lit "ALLOWED_ORIGINS" = Some s -> cors_origin env = VStr s) /\
  (env !! lit "WA_DATA_PATH" = None \/ env !! lit "WA_DATA_PATH" = Some [] ->
   dataPath env = VStr (lit "./auth_data")) /\
  (env !! lit "WA_DATA_PATH" = Some s -> dataPath env = VStr s).
Proof.
  intros Hs. unfold port, cors_origin, dataPath.
  repeat split; intros H;
    (by apply js_or_env_default) || (by apply js_or_env_given).
Qed.

Lemma config_defaults_witness :
  port example_env = VStr (lit "8080") /\
  cors_origin example_env = VStr (lit "*") /\
  dataPath example_env = VStr (lit "./auth_data").
Proof.
  assert (Hs : lit "8080" <> []) by discriminate.
  destruct (config_defaults example_env (lit "8080") Hs)
    as (_ & Hp & Ho & _ & Hd & _).
  split; [|split].
  - apply Hp. vm_compute. reflexivity.
  - apply Ho. right. vm_compute. reflexivity.
  - apply Hd. left. vm_compute. reflexivity.
Defined.

(** * The further properties at concrete requests *)

Lemma formattedNumber_fixed_iff_witness :
  formattedNumber (lit "+62 812@c.us (work)") = lit "+62 812@c.us (work)".
Proof.
  apply (formattedNumber_fixed_iff (lit "+62 812@c.us (work)")).
  exists (lit "+62 812"), (lit " (work)"). reflexivity.
Defined.

Lemma routes_normalise_alike_witness :
  chatId <$> (run (send_message null_mime_body) (resolving "3EB0")).2 =
  chatId <$> (run (send_image jpeg_only null_mime_body) (resolving "3EB0")).2.
Proof.
  apply routes_normalise_alike; vm_compute; reflexivity.
Defined.

Lemma image_call_made :
  (run (send_image jpeg_only image_body) (rejecting "Session closed")).2
    = [image_call].
Proof. vm_compute. reflexivity. Qed.

Lemma null_mime_call_made :
  (run (send_image jpeg_only null_mime_body) (resolving "3EB0")).2
    = [null_mime_call].
Proof. vm_compute. reflexivity. Qed.

Lemma send_image_options_witness :
  exists m o,
    payload image_call = Media m /\ options image_call = Some o /\
    data m = VStr (lit "/9j/4AAQ") /\
    sendMediaAsDocument o = false /\
    caption o = VStr [].
Proof.
  destruct (send_image_options jpeg_only image_body
              (rejecting "Session closed") image_call)
    as (m & o & Hp & Ho & Hd & Hdoc & _ & Hcap).
  { rewrite image_call_made. apply list_elem_of_singleton. reflexivity. }
  exists m, o. split; [exact Hp|]. split; [exact Ho|].
  split; [exact Hd|]. split; [exact Hdoc|].
  apply Hcap. vm_compute. reflexivity.
Defined.

Lemma send_image_given_mime_witness :
  exists m,
    payload null_mime_call = Media m /\ mimetype m = VNull /\
    filename m = lit "image.false".
Proof.
  destruct (send_image_given_mime jpeg_only null_mime_body (resolving "3EB0")
              null_mime_call VNull) as (m & Hp & Hty & _ & Hfn).
  - vm_compute. reflexivity.
  - discriminate.
  - rewrite null_mime_call_made. apply list_elem_of_singleton. reflexivity.
  - exists m. split; [exact Hp|]. split; [exact Hty|].
    apply Hfn. reflexivity.
Defined.

Lemma send_image_outcome_witness :
  (run (send_image jpeg_only image_body) (rejecting "Session closed")).1 =
    Normal {| status := 500;
              json := object
                [ ("success", VBool false);
                  ("message", VStr (lit "Failed to send image"));
                  ("error", VStr (lit "Session closed")) ] |}.
Proof.
  destruct (send_image_outcome jpeg_only image_body
              (rejecting "Session closed") image_call) as (_ & H).
  { rewrite image_call_made. apply list_elem_of_singleton. reflexivity. }
  apply (H {| err_message := lit "Session closed" |}). reflexivity.
Defined.

Lemma success_needs_resolved_send_witness :
  exists c sent,
    (run (send_message example_body) (resolving "3EB0")).2 = [c] /\
    sendMessage (resolving "3EB0") c = Normal sent.
Proof.
  destruct (success_needs_resolved_send jpeg_only example_body
              (resolving "3EB0")
              {| status := 200;
                 json := object
                   [ ("success", VBool true);
                     ("message", VStr (lit "Message sent successfully"));
                     ("data", VStr (lit "3EB0")) ] |}) as (H & _).
  apply H; vm_compute; reflexivity.
Defined.

(** X17: the health check says nothing about the session: [GET /] gives
    the same answer for a client without a session and for a connected one,
    where [GET /status] gives two different answers. *)
Theorem health_check_blind_to_session (client1 client2 : Client) :
  info client1 = None -> info client2 <> None ->
  run get_root client1 = run get_root client2 /\
  run get_status client1 <> run get_status client2.
Proof.
  intros H1 H2. split; [done|].
  destruct (info client2) as [i|] eqn:Hi; [|done].
  unfold run, get_status, mbind, mret, M_bind, M_ret, bind, ret, client_info.
  rewrite H1, Hi. intros Heq.
  apply (f_equal (fun out =>
           match out.1 with
           | Normal r => json r !! lit "connected"
           | Throw _ => None
           end)) in Heq.
  vm_compute in Heq. discriminate Heq.
Qed.

Lemma health_check_blind_to_session_witness :
  run get_root (resolving "3EB0") = run get_root ready /\
  run get_status (resolving "3EB0") <> run get_status ready.
Proof.
  apply health_check_blind_to_session; [reflexivity | discriminate].
Defined.
